(** * common-notebook: recurrence labels, day boundary and work-session phases

    A shallow embedding of the date and recurrence core of the notebook
    front end:

    - [app/lib/recurrenceLabels.ts]   ([getDayName], [getOrdinal],
      [getMonthName], [getRecurrencePrefix]);
    - [app/lib/dateUtils.ts]          ([formatInEST], [toISODateInEST],
      [getTodayForRecurrence], [getCompletionDateForRecurrence]);
    - [app/lib/dayBoundaryHelpers.ts] ([getEffectiveDayForTimestamp],
      [getWorkedOnPhase]);
    - the Recurrence Advancer and the skip and complete entry points, whose
      route handlers are known through their tests only.

    Conventions.  A JavaScript number that the code uses as an integer is
    a value of [Z].  A [Date] is its time value, the milliseconds since
    1970-01-01T00:00:00Z; it is always a valid date, and the limit of
    8.64e15 milliseconds is not modelled.  The methods of [Date] and the
    functions of date-fns and date-fns-tz that the code calls are written
    out from the abstract operations of ECMA-262.  The code runs on a host
    whose own zone has a fixed offset from UTC ([hostOffset], 0 on a
    server in UTC); the configured zone ([getTimezone()]) is any zone. *)

From Stdlib Require Import ZArith QArith String Ascii List Lia Bool.
From Stdlib Require Import DecimalString DecimalPos DecimalZ.
Import ListNotations.

Open Scope string_scope.
Open Scope Z_scope.

(* ================================================================== *)
(** * Part I.  Definitions                                             *)
(* ================================================================== *)

(** ** JavaScript values used by the labels *)

(** A field of type [number | null] (or left out of the object literal,
    hence [undefined]). *)
Inductive jsnum : Type :=
| JNull
| JUndefined
| JNum (n : Z).

(** [String(n)] for an integer [n]: its decimal digits, with a leading
    minus sign for a negative one. *)
Definition numToString (n : Z) : string :=
  NilZero.string_of_int (Z.to_int n).



(** Does character [c] occur in [s]? *)
Fixpoint occurs (c : ascii) (s : string) : bool :=
  match s with
  | EmptyString => false
  | String a rest => Ascii.eqb c a || occurs c rest
  end.

(** ** [recurrenceLabels.ts] *)

(** The fields of [Todo] that the recurrence code reads. *)
Record Todo : Type := mkTodo {
  recurrenceType : string;
  recurrenceInterval : jsnum;
  recurrenceDayOfWeek : jsnum;
  recurrenceDayOfMonth : jsnum;
  recurrenceWeekOfMonth : jsnum;
  recurrenceDayOfWeekMonthly : jsnum;
  recurrenceMonth : jsnum
}.

Definition days : list string :=
  ["sunday"; "monday"; "tuesday"; "wednesday"; "thursday"; "friday"; "saturday"].

(** [getDayName(dayIndex)]: [days[dayIndex]] guarded by
    [dayIndex == null || dayIndex < 0 || dayIndex > 6]. *)
Definition getDayName (dayIndex : jsnum) : string :=
  match dayIndex with
  | JNum i =>
      if (i <? 0) || (6 <? i) then "unknown"
      else nth (Z.to_nat i) days "undefined"
  | _ => "unknown"
  end.

(** [getOrdinal(num)]; [%] is the truncating remainder of JavaScript. *)
Definition getOrdinal (num : Z) : string :=
  let j := Z.rem num 10 in
  let k := Z.rem num 100 in
  if (j =? 1) && negb (k =? 11) then numToString num ++ "st"
  else if (j =? 2) && negb (k =? 12) then numToString num ++ "nd"
  else if (j =? 3) && negb (k =? 13) then numToString num ++ "rd"
  else numToString num ++ "th".

Definition months : list string :=
  ["january"; "february"; "march"; "april"; "may"; "june";
   "july"; "august"; "september"; "october"; "november"; "december"].

Definition getMonthName (monthIndex : jsnum) : string :=
  match monthIndex with
  | JNum i =>
      if (i <? 1) || (12 <? i) then "unknown"
      else nth (Z.to_nat (i - 1)) months "undefined"
  | _ => "unknown"
  end.

(** [getRecurrencePrefix(todo)]: the [switch] on [todo.recurrenceType],
    case by case in the order of the source. *)
Definition getRecurrencePrefix (todo : Todo) : string :=
  let ty := recurrenceType todo in
  if String.eqb ty "daily" then "every day"
  else if String.eqb ty "every x days" then
    match recurrenceInterval todo with
    | JNum n => if 0 <? n then "every " ++ numToString n ++ " days"
                else "every x days"
    | _ => "every x days"
    end
  else if String.eqb ty "weekly" then
    match recurrenceDayOfWeek todo with
    | JNum d => if (1 <=? d) && (d <=? 7)
                then "every " ++ getDayName (JNum (Z.rem d 7))
                else "weekly"
    | _ => "weekly"
    end
  else if String.eqb ty "biweekly" then
    match recurrenceDayOfWeek todo with
    | JNum d => if (1 <=? d) && (d <=? 7)
                then "every other " ++ getDayName (JNum (Z.rem d 7))
                else "biweekly"
    | _ => "biweekly"
    end
  else if String.eqb ty "monthly date" then
    match recurrenceDayOfMonth todo with
    | JNum d => if (1 <=? d) && (d <=? 31)
                then "on the " ++ getOrdinal d
                else "monthly"
    | _ => "monthly"
    end
  else if String.eqb ty "monthly day" then
    match recurrenceWeekOfMonth todo, recurrenceDayOfWeekMonthly todo with
    | JNum w, JNum d =>
        if (1 <=? d) && (d <=? 7)
        then getOrdinal w ++ " " ++ getDayName (JNum (Z.rem d 7))
        else "monthly"
    | _, _ => "monthly"
    end
  else if String.eqb ty "annually" then
    match recurrenceMonth todo, recurrenceDayOfMonth todo with
    | JNum m, JNum d =>
        if (1 <=? m) && (m <=? 12)
        then numToString m ++ "/" ++ numToString d
        else "annually"
    | _, _ => "annually"
    end
  else if String.eqb ty "full moon" || String.eqb ty "new moon" || String.eqb ty "every season"
          || String.eqb ty "winter solstice" || String.eqb ty "spring equinox"
          || String.eqb ty "summer solstice" || String.eqb ty "autumn equinox" then ""
  else "".

(** *** The weekday of the data model, in the words of the specification

    [dayOfWeek] is ISO-8601 (1 = Monday ... 7 = Sunday); its name is looked
    up at index [dayOfWeek mod 7] of the table that starts with Sunday. *)
Definition isoWeekdayName (dayOfWeek : Z) : string :=
  nth (Z.to_nat (dayOfWeek mod 7)) days "undefined".

(** The old conversion that the regression tests rule out. *)
Definition minusOneWeekdayName (dayOfWeek : Z) : string :=
  nth (Z.to_nat (dayOfWeek - 1)) days "undefined".

(** *** Degenerate rules

    [absentOr bad x]: the field is [null], [undefined], or a number that
    satisfies [bad]. *)
Definition absentOr (bad : Z -> Prop) (x : jsnum) : Prop :=
  match x with
  | JNum n => bad n
  | _ => True
  end.

Definition outside (lo hi : Z) (n : Z) : Prop := n < lo \/ hi < n.

(** The rules for which the code answers with the generic label [lbl]:
    one constructor per guard of [getRecurrencePrefix]. *)
Inductive Degenerate (t : Todo) : string -> Prop :=
| deg_interval :
    recurrenceType t = "every x days" ->
    absentOr (fun n => n <= 0) (recurrenceInterval t) ->
    Degenerate t "every x days"
| deg_weekly :
    recurrenceType t = "weekly" ->
    absentOr (outside 1 7) (recurrenceDayOfWeek t) ->
    Degenerate t "weekly"
| deg_biweekly :
    recurrenceType t = "biweekly" ->
    absentOr (outside 1 7) (recurrenceDayOfWeek t) ->
    Degenerate t "biweekly"
| deg_monthly_date :
    recurrenceType t = "monthly date" ->
    absentOr (outside 1 31) (recurrenceDayOfMonth t) ->
    Degenerate t "monthly"
| deg_monthly_day_week :
    recurrenceType t = "monthly day" ->
    absentOr (fun _ => False) (recurrenceWeekOfMonth t) ->
    Degenerate t "monthly"
| deg_monthly_day_weekday :
    recurrenceType t = "monthly day" ->
    absentOr (outside 1 7) (recurrenceDayOfWeekMonthly t) ->
    Degenerate t "monthly"
| deg_annually_month :
    recurrenceType t = "annually" ->
    absentOr (outside 1 12) (recurrenceMonth t) ->
    Degenerate t "annually"
| deg_annually_day :
    recurrenceType t = "annually" ->
    absentOr (fun _ => False) (recurrenceDayOfMonth t) ->
    Degenerate t "annually".

(** The degenerate rules of the data model: every required field is held
    to its declared range (interval > 0; dayOfWeek 1-7; dayOfMonth 1-31;
    weekOfMonth 1-5; dayOfWeekMonthly 1-7; month 1-12). *)
Inductive DeclaredDegenerate (t : Todo) : string -> Prop :=
| ddeg_interval :
    recurrenceType t = "every x days" ->
    absentOr (fun n => n <= 0) (recurrenceInterval t) ->
    DeclaredDegenerate t "every x days"
| ddeg_weekly :
    recurrenceType t = "weekly" ->
    absentOr (outside 1 7) (recurrenceDayOfWeek t) ->
    DeclaredDegenerate t "weekly"
| ddeg_biweekly :
    recurrenceType t = "biweekly" ->
    absentOr (outside 1 7) (recurrenceDayOfWeek t) ->
    DeclaredDegenerate t "biweekly"
| ddeg_monthly_date :
    recurrenceType t = "monthly date" ->
    absentOr (outside 1 31) (recurrenceDayOfMonth t) ->
    DeclaredDegenerate t "monthly"
| ddeg_monthly_day_week :
    recurrenceType t = "monthly day" ->
    absentOr (outside 1 5) (recurrenceWeekOfMonth t) ->
    DeclaredDegenerate t "monthly"
| ddeg_monthly_day_weekday :
    recurrenceType t = "monthly day" ->
    absentOr (outside 1 7) (recurrenceDayOfWeekMonthly t) ->
    DeclaredDegenerate t "monthly"
| ddeg_annually_month :
    recurrenceType t = "annually" ->
    absentOr (outside 1 12) (recurrenceMonth t) ->
    DeclaredDegenerate t "annually"
| ddeg_annually_day :
    recurrenceType t = "annually" ->
    absentOr (outside 1 31) (recurrenceDayOfMonth t) ->
    DeclaredDegenerate t "annually".

(** ** Time values and calendar fields (ECMA-262, Date objects)

    A [Date] is its time value [t], in milliseconds since
    1970-01-01T00:00:00Z.  [Day], [TimeWithinDay], [HourFromTime],
    [MakeTime], [MakeDay] and [MakeDate] are the abstract operations of the
    language standard from which every getter and setter of [Date] is
    defined. *)

Definition msPerSecond : Z := 1000.
Definition msPerMinute : Z := 60000.
Definition msPerHour : Z := 3600000.
Definition msPerDay : Z := 86400000.

Definition Day (t : Z) : Z := t / msPerDay.
Definition TimeWithinDay (t : Z) : Z := t mod msPerDay.
Definition HourFromTime (t : Z) : Z := (t / msPerHour) mod 24.
Definition MinFromTime (t : Z) : Z := (t / msPerMinute) mod 60.
Definition SecFromTime (t : Z) : Z := (t / msPerSecond) mod 60.
Definition msFromTime (t : Z) : Z := t mod msPerSecond.

(** The proleptic Gregorian date (year, month 1-12, day of month) of the
    day that lies [z] days after 1970-01-01, computed era by era (an era
    is 400 years, 146097 days, and starts on a first of March). *)
Definition civilFromDays (z : Z) : Z * Z * Z :=
  let z := z + 719468 in
  let era := z / 146097 in
  let doe := z - era * 146097 in
  let yoe := (doe - doe / 1460 + doe / 36524 - doe / 146096) / 365 in
  let y := yoe + era * 400 in
  let doy := doe - (365 * yoe + yoe / 4 - yoe / 100) in
  let mp := (5 * doy + 2) / 153 in
  let d := doy - (153 * mp + 2) / 5 + 1 in
  let m := if mp <? 10 then mp + 3 else mp - 9 in
  (if m <=? 2 then y + 1 else y, m, d).

(** Its inverse: the number of days from 1970-01-01 to the given date.
    A day of month outside the month counts on into the neighbouring
    months, as [MakeDay] requires. *)
Definition daysFromCivil (y m d : Z) : Z :=
  let y := if m <=? 2 then y - 1 else y in
  let era := y / 400 in
  let yoe := y - era * 400 in
  let doy := (153 * (if 2 <? m then m - 3 else m + 9) + 2) / 5 + d - 1 in
  let doe := yoe * 365 + yoe / 4 - yoe / 100 + doy in
  era * 146097 + doe - 719468.

Definition YearFromTime (t : Z) : Z :=
  let '(y, _, _) := civilFromDays (Day t) in y.

(** Months of [Date] count from 0. *)
Definition MonthFromTime (t : Z) : Z :=
  let '(_, m, _) := civilFromDays (Day t) in m - 1.

Definition DateFromTime (t : Z) : Z :=
  let '(_, _, d) := civilFromDays (Day t) in d.

Definition MakeTime (hour min sec ms : Z) : Z :=
  hour * msPerHour + min * msPerMinute + sec * msPerSecond + ms.

Definition MakeDay (year month date : Z) : Z :=
  let ym := year + month / 12 in
  let mn := month mod 12 in
  daysFromCivil ym (mn + 1) 1 + date - 1.

Definition MakeDate (day time : Z) : Z := day * msPerDay + time.

(** The instant [y-m-dTh:mi:00Z], to write examples with. *)
Definition utcInstant (y m d h mi : Z) : Z :=
  MakeDate (daysFromCivil y m d) (MakeTime h mi 0 0).

(** ** Time zones

    A zone gives the offset from UTC, in milliseconds, that is in force at
    an instant ([offsetAt]) and the one used to read a wall-clock time of
    the zone back into an instant ([offsetAtLocal]).  A zone without
    daylight saving has one constant offset. *)
Record Zone : Type := mkZone {
  offsetAt : Z -> Z;
  offsetAtLocal : Z -> Z
}.

Definition fixedZone (offset : Z) : Zone :=
  mkZone (fun _ => offset) (fun _ => offset).

Definition zoneUTC : Zone := fixedZone 0.

(** America/New_York while standard time is in force (UTC-05:00), as in
    the January dates of the tests. *)
Definition zoneEST : Zone := fixedZone (-5 * msPerHour).

(** Bounded search, used to check a table of the calendar exhaustively. *)
Fixpoint allFrom (f : Z -> bool) (fuel : nat) (i : Z) : bool :=
  match fuel with
  | O => true
  | S k => f i && allFrom f k (i + 1)
  end.

(** What [civilFromDays] owes on day [doe] of an era. *)
Definition doeOk (doe : Z) : bool :=
  let yoe := (doe - doe / 1460 + doe / 36524 - doe / 146096) / 365 in
  let doy := doe - (365 * yoe + yoe / 4 - yoe / 100) in
  let mp := (5 * doy + 2) / 153 in
  let d := doy - (153 * mp + 2) / 5 + 1 in
  let m := if mp <? 10 then mp + 3 else mp - 9 in
  (0 <=? yoe) && (yoe <=? 399) && (0 <=? mp) && (mp <=? 11)
  && (1 <=? d) && (d <=? 31)
  && (yoe * 365 + yoe / 4 - yoe / 100
      + ((153 * (if 2 <? m then m - 3 else m + 9) + 2) / 5 + d - 1) =? doe).

(** ** String helpers of the formatters *)

Fixpoint zeros (n : nat) : string :=
  match n with
  | O => ""
  | S k => String "0" (zeros k)
  end.

(** [s.padStart(targetLength, '0')] *)
Definition padStart (targetLength : nat) (s : string) : string :=
  zeros (targetLength - String.length s) ++ s.

(** [addLeadingZeros(number, targetLength)] of date-fns. *)
Definition addLeadingZeros (number : Z) (targetLength : nat) : string :=
  let sign := if number <? 0 then "-" else "" in
  sign ++ padStart targetLength (numToString (Z.abs number)).

(** The format strings that the modelled code passes to the formatters. *)
Inductive FormatString : Type :=
| Fmt_yyyy_MM_dd   (* 'yyyy-MM-dd' *)
| Fmt_H.           (* 'H' *)

(** The tokens [yyyy], [MM], [dd] of date-fns on the fields of a date:
    the year is printed as [1 - year] when it is not positive, and every
    field is padded with zeros. *)
Definition renderIsoDate (year month date : Z) : string :=
  let y := if 0 <? year then year else 1 - year in
  addLeadingZeros y 4 ++ "-" ++ addLeadingZeros month 2
  ++ "-" ++ addLeadingZeros date 2.

(** The calendar date, as [YYYY-MM-DD], of the day that lies [dayNumber]
    days after 1970-01-01. *)
Definition isoDate (dayNumber : Z) : string :=
  let '(y, m, d) := civilFromDays dayNumber in renderIsoDate y m d.

Section Host.

(** The zone of the machine the code runs on, a fixed offset from UTC
    (0 on a server that runs in UTC); [tz] is the configured zone,
    [getTimezone()]; [configuredBoundaryHour] is [getDayBoundaryHour()]. *)
Variable hostOffset : Z.
Variable tz : Zone.
Variable configuredBoundaryHour : Z.

Definition LocalTime (t : Z) : Z := t + hostOffset.
Definition UTC (t : Z) : Z := t - hostOffset.

(** *** Methods of [Date] *)

Definition getUTCFullYear (d : Z) : Z := YearFromTime d.
Definition getUTCMonth (d : Z) : Z := MonthFromTime d.
Definition getUTCDate (d : Z) : Z := DateFromTime d.
Definition getUTCHours (d : Z) : Z := HourFromTime d.
Definition getUTCMinutes (d : Z) : Z := MinFromTime d.
Definition getUTCSeconds (d : Z) : Z := SecFromTime d.
Definition getUTCMilliseconds (d : Z) : Z := msFromTime d.

Definition getFullYear (d : Z) : Z := YearFromTime (LocalTime d).
Definition getMonth (d : Z) : Z := MonthFromTime (LocalTime d).
Definition getDate (d : Z) : Z := DateFromTime (LocalTime d).
Definition getHours (d : Z) : Z := HourFromTime (LocalTime d).

Definition setFullYear (d year month date : Z) : Z :=
  let t := LocalTime d in
  UTC (MakeDate (MakeDay year month date) (TimeWithinDay t)).

Definition setHours (d hour min sec ms : Z) : Z :=
  let t := LocalTime d in
  UTC (MakeDate (Day t) (MakeTime hour min sec ms)).

Definition setDate (d date : Z) : Z :=
  let t := LocalTime d in
  UTC (MakeDate (MakeDay (YearFromTime t) (MonthFromTime t) date)
                (TimeWithinDay t)).

Definition setUTCDate (d date : Z) : Z :=
  MakeDate (MakeDay (YearFromTime d) (MonthFromTime d) date)
           (TimeWithinDay d).

(** *** date-fns *)

(** [addDays(date, amount)]: [setDate(getDate() + amount)] on a copy. *)
Definition addDays (date amount : Z) : Z :=
  if amount =? 0 then date else setDate date (getDate date + amount).

(** [format(date, formatStr)], which reads the fields of [date] in the
    zone of the host. *)
Definition format (date : Z) (formatStr : FormatString) : string :=
  match formatStr with
  | Fmt_yyyy_MM_dd =>
      renderIsoDate (getFullYear date) (getMonth date + 1) (getDate date)
  | Fmt_H => addLeadingZeros (getHours date) 1
  end.

(** *** date-fns-tz *)

(** [tzParseTimezone(timeZone, date, true)]: the milliseconds to add to
    the wall-clock time of the zone to come back to UTC. *)
Definition tzParseTimezone (timeZone : Zone) (date : Z) : Z :=
  - offsetAt timeZone date.

(** [toZonedTime(date, timeZone)].  The library moves the time value by
    the offset of the zone, reads the UTC fields of the result and sets
    them as the host-local fields of a fresh [Date]:
    [resultDate.setFullYear(d.getUTCFullYear(), d.getUTCMonth(),
    d.getUTCDate())], then [resultDate.setHours(d.getUTCHours(), ...)].
    So the getters without UTC in their name ([getHours], [getDate], ...)
    give the wall-clock time of [timeZone] at [date]. *)
Definition toZonedTime (date : Z) (timeZone : Zone) : Z :=
  let offsetMilliseconds := tzParseTimezone timeZone date in
  let d := date - offsetMilliseconds in
  let resultDate := 0 in
  let resultDate :=
    setFullYear resultDate (getUTCFullYear d) (getUTCMonth d) (getUTCDate d) in
  setHours resultDate (getUTCHours d) (getUTCMinutes d) (getUTCSeconds d)
           (getUTCMilliseconds d).

(** [fromZonedTime(`${dateStr}T${HH}:00:00`, timeZone)], [dateStr] having
    been printed from the fields [(year, month, date)]: the instant at
    which the clocks of [timeZone] show that date and hour.  (The fields
    stand for the date string, which the parser reads back unchanged for
    the years 0001 to 9999.) *)
Definition fromZonedTime (year month date hour : Z) (timeZone : Zone) : Z :=
  let wall := MakeDate (MakeDay year (month - 1) date) (MakeTime hour 0 0 0) in
  wall - offsetAtLocal timeZone wall.

(** [formatTz(date, formatStr, { timeZone })]: neither format string of
    the modelled code has a zone token, so the call is that of
    [format]. *)
Definition formatTz (date : Z) (formatStr : FormatString) : string :=
  format date formatStr.

(** ** [dateUtils.ts] *)

(** [formatInEST(date, formatString)] *)
Definition formatInEST (date : Z) (formatString : FormatString) : string :=
  let zonedDate := toZonedTime date tz in
  match formatString with
  | Fmt_yyyy_MM_dd =>
      let year := getFullYear zonedDate in
      let month := padStart 2 (numToString (getMonth zonedDate + 1)) in
      let day := padStart 2 (numToString (getDate zonedDate)) in
      numToString year ++ "-" ++ month ++ "-" ++ day
  | other => formatTz zonedDate other
  end.

Definition toISODateInEST (date : Z) : string :=
  formatInEST date Fmt_yyyy_MM_dd.


(** [getCompletionDateForRecurrence(completionTime)] *)
Definition getCompletionDateForRecurrence (completionTime : Z) : string :=
  let dayBoundaryHour := configuredBoundaryHour in
  let zonedTime := toZonedTime completionTime tz in
  let completionHour := getHours zonedTime in
  if completionHour <? dayBoundaryHour then
    let previousDay := addDays zonedTime (-1) in
    formatTz previousDay Fmt_yyyy_MM_dd
  else formatTz zonedTime Fmt_yyyy_MM_dd.

(** ** [dayBoundaryHelpers.ts] *)

(** [getEffectiveDayForTimestamp(timestamp, dayBoundaryHour)] *)
Definition getEffectiveDayForTimestamp (timestamp dayBoundaryHour : Z) : string :=
  let zonedTime := toZonedTime timestamp tz in
  let adjustedDate := zonedTime in
  let adjustedDate :=
    if getUTCHours adjustedDate <? dayBoundaryHour
    then setUTCDate adjustedDate (getUTCDate adjustedDate - 1)
    else adjustedDate in
  toISODateInEST adjustedDate.

(** [getWorkedOnPhase(workSessionTimestamp, now, visibilityMinutes,
    dayBoundaryHour)]; [sessionTime] is the time value of
    [new Date(workSessionTimestamp)], and the minutes since the session
    are the exact quotient by 60000. *)
Definition getWorkedOnPhase
    (sessionTime now visibilityMinutes dayBoundaryHour : Z) : Z :=
  let minutesSinceSession := Qmake (now - sessionTime) 60000 in
  let sessionDay := getEffectiveDayForTimestamp sessionTime dayBoundaryHour in
  let currentDay := getEffectiveDayForTimestamp now dayBoundaryHour in
  if negb (String.eqb sessionDay currentDay) then 3
  else if Qle_bool minutesSinceSession (inject_Z visibilityMinutes) then 1
  else 2.

End Host.

(** ** The effective day of the data model, in the words of the
    specification

    Convert the instant to the local time of the zone; if the local hour is
    less than the boundary hour the effective day is the previous calendar
    day, otherwise it is the same calendar day. *)
Definition localTimeIn (zone : Zone) (instant : Z) : Z :=
  instant + offsetAt zone instant.

Definition effectiveDayNumber (zone : Zone) (boundaryHour instant : Z) : Z :=
  let local := localTimeIn zone instant in
  if HourFromTime local <? boundaryHour then Day local - 1 else Day local.

Definition effectiveDay (zone : Zone) (boundaryHour instant : Z) : string :=
  isoDate (effectiveDayNumber zone boundaryHour instant).

(** The year of the day that lies [dayNumber] days after 1970-01-01. *)
Definition yearOfDay (dayNumber : Z) : Z :=
  let '(y, _, _) := civilFromDays dayNumber in y.



(** A year of four digits is printed alike with and without padding. *)
Definition yearOk (y : Z) : bool :=
  String.eqb (addLeadingZeros y 4) (numToString y).

(** The date as [toISODateInEST] prints it from the fields: the year as
    it is, month and day padded to two digits. *)
Definition plainIsoDate (dayNumber : Z) : string :=
  let '(y, m, d) := civilFromDays dayNumber in
  numToString y ++ "-" ++ padStart 2 (numToString m)
  ++ "-" ++ padStart 2 (numToString d).

(** ** Recurrence Advancer and the two entry points

    The advancer and the two route handlers that call it are not among the
    sources; what follows is written from sections 3, 4.3, 6 and 7 of the
    specification and from the expectations of
    [recurrence-routes.test.ts]. *)

(** Modelled from the spec: a CalendarDate, the date a task is scheduled
    for ([displayDate]), by its fields; the advancer is not among the
    sources. *)
Record CalendarDate : Type := mkDate {
  cYear : Z;
  cMonth : Z;
  cDay : Z
}.

(** Modelled from the spec: the position of a CalendarDate in the run of
    days, by which the advancer of section 4.3 counts days. *)
Definition dayNumberOf (c : CalendarDate) : Z :=
  daysFromCivil (cYear c) (cMonth c) (cDay c).

(** Modelled from the spec: the CalendarDate at a position in the run of
    days (section 4.3). *)
Definition dateOfDayNumber (n : Z) : CalendarDate :=
  let '(y, m, d) := civilFromDays n in mkDate y m d.

(** Modelled from the spec: [currentDate + n days] of section 4.3. *)
Definition plusDays (c : CalendarDate) (n : Z) : CalendarDate :=
  dateOfDayNumber (dayNumberOf c + n).

(** Modelled from the spec: the month after month [m] of year [y], the
    year rolling over from December to January (section 4.3). *)
Definition followingMonth (y m : Z) : Z * Z :=
  (y + m / 12, m mod 12 + 1).

(** Modelled from the spec: the last valid day of a month, to which a
    monthly date is clamped (section 4.3). *)
Definition lastDayOfMonth (y m : Z) : Z :=
  let '(y', m') := followingMonth y m in
  daysFromCivil y' m' 1 - daysFromCivil y m 1.

(** Modelled from the spec: the ISO-8601 weekday (1 = Monday ...
    7 = Sunday) of a day number, for the monthly-day rule of section 4.3;
    1970-01-01 was a Thursday. *)
Definition isoWeekday (dayNumber : Z) : Z := (dayNumber + 3) mod 7 + 1.

(** Modelled from the spec: [formatCalendarDate] of section 4.1, the
    date as [YYYY-MM-DD]. *)
Definition formatCalendarDate (c : CalendarDate) : string :=
  renderIsoDate (cYear c) (cMonth c) (cDay c).

(** Modelled from the spec: the error of the advancer (section 7). *)
Inductive AdvanceError : Type :=
| MalformedRule.

(** Modelled from the spec: the types whose next date comes from the
    astronomy capability (sections 4.3 and 6). *)
Definition isAstronomical (ty : string) : bool :=
  String.eqb ty "full moon" || String.eqb ty "new moon"
  || String.eqb ty "every season" || String.eqb ty "winter solstice"
  || String.eqb ty "spring equinox" || String.eqb ty "summer solstice"
  || String.eqb ty "autumn equinox".

Section Advancer.

(** The astronomy capability: the date of the next occurrence of the
    named event, given the current occurrence and the caller's today. *)
Variable astronomy : string -> CalendarDate -> CalendarDate -> CalendarDate.

(** Modelled from the spec: the Recurrence Advancer [nextOccurrence] of
    section 4.3, which lives in the skip and complete route handlers
    ([app/api/todos/[documentId]/skip/route.ts] and
    [.../complete/route.ts]); only their tests are among the sources.
    A rule whose required field is absent or out of its declared range
    is an error; so is a monthly-day rule when the following month has
    no such day, a case on which the specification is silent. *)
Definition nextOccurrence (rule : Todo) (currentDate referenceToday : CalendarDate)
  : AdvanceError + CalendarDate :=
  let ty := recurrenceType rule in
  if String.eqb ty "daily" then inr (plusDays currentDate 1)
  else if String.eqb ty "every x days" then
    match recurrenceInterval rule with
    | JNum n => if 0 <? n then inr (plusDays currentDate n)
                else inl MalformedRule
    | _ => inl MalformedRule
    end
  else if String.eqb ty "weekly" then
    match recurrenceDayOfWeek rule with
    | JNum d => if (1 <=? d) && (d <=? 7) then inr (plusDays currentDate 7)
                else inl MalformedRule
    | _ => inl MalformedRule
    end
  else if String.eqb ty "biweekly" then
    match recurrenceDayOfWeek rule with
    | JNum d => if (1 <=? d) && (d <=? 7) then inr (plusDays currentDate 14)
                else inl MalformedRule
    | _ => inl MalformedRule
    end
  else if String.eqb ty "monthly date" then
    match recurrenceDayOfMonth rule with
    | JNum d =>
        if (1 <=? d) && (d <=? 31) then
          let '(y, m) := followingMonth (cYear currentDate) (cMonth currentDate) in
          inr (mkDate y m (Z.min d (lastDayOfMonth y m)))
        else inl MalformedRule
    | _ => inl MalformedRule
    end
  else if String.eqb ty "monthly day" then
    match recurrenceWeekOfMonth rule, recurrenceDayOfWeekMonthly rule with
    | JNum w, JNum d =>
        if (1 <=? w) && (w <=? 5) && (1 <=? d) && (d <=? 7) then
          let '(y, m) := followingMonth (cYear currentDate) (cMonth currentDate) in
          let first := daysFromCivil y m 1 in
          let day := 1 + (d - isoWeekday first) mod 7 + 7 * (w - 1) in
          if day <=? lastDayOfMonth y m then inr (mkDate y m day)
          else inl MalformedRule
        else inl MalformedRule
    | _, _ => inl MalformedRule
    end
  else if String.eqb ty "annually" then
    match recurrenceMonth rule, recurrenceDayOfMonth rule with
    | JNum m, JNum d =>
        if (1 <=? m) && (m <=? 12) && (1 <=? d) && (d <=? 31)
        then inr (mkDate (cYear currentDate + 1) m d)
        else inl MalformedRule
    | _, _ => inl MalformedRule
    end
  else if isAstronomical ty then inr (astronomy ty currentDate referenceToday)
  else inl MalformedRule.

(** Modelled from the spec: an Occurrence of section 3, a task instance
    as the entry points see it (the route handlers are not among the
    sources). *)
Record Occurrence : Type := mkOccurrence {
  occRule : Todo;
  isRecurring : bool;
  displayDate : CalendarDate
}.

(** Modelled from the spec: what becomes of the occurrence that was
    skipped or completed (section 3; the route handlers are not among the
    sources). *)
Inductive Disposition : Type :=
| PriorDeleted
| PriorCompleted.

(** Modelled from the spec: the refusals of an entry point (section 7
    and the tests; the route handlers are not among the sources). *)
Inductive RouteError : Type :=
| NotRecurring                       (* 400, "Todo is not recurring" *)
| AdvanceFailed (e : AdvanceError).

(** Modelled from the spec: the outcome of an entry point (the route
    handlers are not among the sources), [newTodo.displayDate] of the
    response ([None] when no new instance is created) and the fate of the
    prior occurrence. *)
Record RouteResult : Type := mkResult {
  newDisplayDate : option CalendarDate;
  prior : Disposition
}.

(** Modelled from the spec: the skip entry point (sections 3 and 4.3,
    and the expectations of [recurrence-routes.test.ts]); the route
    handler is not among the sources.  The old occurrence is deleted and
    a new one is created on the next date; a todo that does not recur is
    refused. *)
Definition skipRoute (occ : Occurrence) (referenceToday : CalendarDate)
  : RouteError + RouteResult :=
  if negb (isRecurring occ) then inl NotRecurring
  else match nextOccurrence (occRule occ) (displayDate occ) referenceToday with
       | inl e => inl (AdvanceFailed e)
       | inr d => inr (mkResult (Some d) PriorDeleted)
       end.

(** Modelled from the spec: the complete entry point (sections 3 and
    4.3, and the expectations of [recurrence-routes.test.ts]); the route
    handler is not among the sources.  The old occurrence is marked
    completed; a recurring one gets a new instance on the next date. *)
Definition completeRoute (occ : Occurrence) (referenceToday : CalendarDate)
  : RouteError + RouteResult :=
  if negb (isRecurring occ) then inr (mkResult None PriorCompleted)
  else match nextOccurrence (occRule occ) (displayDate occ) referenceToday with
       | inl e => inl (AdvanceFailed e)
       | inr d => inr (mkResult (Some d) PriorCompleted)
       end.

End Advancer.

(** ** The rest of [dateUtils.ts] *)

Section HostClock.

Variable hostOffset : Z.
Variable tz : Zone.

(** [getNowInEST()]; [clock] is the reading of [new Date()]. *)
Definition getNowInEST (clock : Z) : Z :=
  toZonedTime hostOffset clock tz.

(** [parseInEST(dateString)], which hands [`${dateString}T00:00:00`] to
    [fromZonedTime]; the fields [(year, month, date)] stand for the date
    string [YYYY-MM-DD] of a calendar date (years 0000 to 9999). *)
Definition parseInEST (year month date : Z) : Z :=
  fromZonedTime year month date 0 tz.

(** [getTodayInEST()]: the date that [formatTz(nowInEST, 'yyyy-MM-dd')]
    prints, parsed back by [parseInEST]. *)
Definition getTodayInEST (clock : Z) : Z :=
  let nowInEST := getNowInEST clock in
  parseInEST (getFullYear hostOffset nowInEST)
             (getMonth hostOffset nowInEST + 1)
             (getDate hostOffset nowInEST).

End HostClock.

(** ** The settings page *)

(** [formatHour(hour)] of [SettingsPage], the label of an option of the
    day-boundary select. *)
Definition formatHour (hour : Z) : string :=
  if hour =? 0 then "12am"
  else if hour <? 12 then numToString hour ++ "am"
  else if hour =? 12 then "12pm"
  else numToString (hour - 12) ++ "pm".

(** The label of hour [h] differs from the label of every other hour of
    the day. *)
Definition hourLabelUnique (h : Z) : bool :=
  allFrom (fun k => (k =? h) || negb (String.eqb (formatHour h) (formatHour k)))
          24 0.

(** The characters of a printed integer. *)
Definition isDigitOrMinus (c : ascii) : bool :=
  occurs c "0123456789-".

(** The recurrence types for which [getRecurrencePrefix] has a case that
    builds a label. *)
Definition labelledTypes : list string :=
  ["daily"; "every x days"; "weekly"; "biweekly"; "monthly date";
   "monthly day"; "annually"].

(** ** Sample values

    Todos and occurrences of the test suites, used as concrete inputs. *)

(** A weekly rule without its day of week. *)
Definition todoNullWeekly : Todo :=
  mkTodo "weekly" JNull JNull JNull JNull JNull JNull.

(** A weekly rule on ISO day 7, Sunday. *)
Definition sundayTodo : Todo :=
  mkTodo "weekly" JNull (JNum 7) JNull JNull JNull JNull.

(** A monthly-day rule whose [weekOfMonth] is 0, and an annual rule whose
    [dayOfMonth] is 32. *)
Definition todoWeekZero : Todo :=
  mkTodo "monthly day" JNull JNull JNull (JNum 0) (JNum 1) JNull.

Definition todoAnnualDay32 : Todo :=
  mkTodo "annually" JNull JNull (JNum 32) JNull JNull (JNum 7).

(** The occurrences of [recurrence-routes.test.ts]: a daily and a weekly
    (Monday) task on Monday 2026-01-05. *)
Definition dailyTodo : Todo :=
  mkTodo "daily" JNull JNull JNull JNull JNull JNull.

Definition weeklyTodo : Todo :=
  mkTodo "weekly" JNull (JNum 1) JNull JNull JNull JNull.

Definition noAstronomy (event : string) (currentDate referenceToday : CalendarDate)
  : CalendarDate := referenceToday.

(* ================================================================== *)
(** * Part II.  Theorems                                               *)
(* ================================================================== *)

(** ** Recurrence labels *)

Lemma small_weekday (d : Z) :
  1 <= d <= 7 -> d = 1 \/ d = 2 \/ d = 3 \/ d = 4 \/ d = 5 \/ d = 6 \/ d = 7.
Proof. lia. Qed.

Lemma getDayName_iso (d : Z) :
  1 <= d <= 7 -> getDayName (JNum (Z.rem d 7)) = isoWeekdayName d.
Proof.
  intros H.
  destruct (small_weekday d H) as [-> | [-> | [-> | [-> | [-> | [-> | ->]]]]]];
    reflexivity.
Qed.

Lemma weekday_guard (d : Z) :
  1 <= d <= 7 -> (1 <=? d) && (d <=? 7) = true.
Proof. intros [H1 H2]. apply andb_true_intro; split; now apply Z.leb_le. Qed.

(** C1.  For every [dayOfWeek] in 1..7 the weekly label is
    "every {weekday}", the weekday being the name at index
    [dayOfWeek mod 7] of the table that starts with Sunday; the biweekly
    and the monthly-day labels use the same mapping; [dayOfWeek = 7] gives
    "every sunday", which differs from "every saturday", the answer of the
    old [dayOfWeek - 1] conversion. *)
Theorem C1_weekday_label (t : Todo) (d : Z) :
  1 <= d <= 7 ->
  (recurrenceType t = "weekly" -> recurrenceDayOfWeek t = JNum d ->
     getRecurrencePrefix t = "every " ++ isoWeekdayName d)
  /\ (recurrenceType t = "biweekly" -> recurrenceDayOfWeek t = JNum d ->
     getRecurrencePrefix t = "every other " ++ isoWeekdayName d)
  /\ (forall w, recurrenceType t = "monthly day" ->
     recurrenceWeekOfMonth t = JNum w ->
     recurrenceDayOfWeekMonthly t = JNum d ->
     getRecurrencePrefix t = getOrdinal w ++ " " ++ isoWeekdayName d)
  /\ (d = 7 -> "every " ++ isoWeekdayName d = "every sunday"
               /\ "every " ++ isoWeekdayName d <> "every saturday"
               /\ "every " ++ minusOneWeekdayName d = "every saturday").
Proof.
  intros Hd. pose proof (weekday_guard d Hd) as Hg.
  pose proof (getDayName_iso d Hd) as Hn.
  repeat split.
  - intros Hty Hf. unfold getRecurrencePrefix. rewrite Hty, Hf.
    simpl. rewrite Hg. now rewrite <- Hn.
  - intros Hty Hf. unfold getRecurrencePrefix. rewrite Hty, Hf.
    simpl. rewrite Hg. now rewrite <- Hn.
  - intros w Hty Hw Hf. unfold getRecurrencePrefix. rewrite Hty, Hw, Hf.
    simpl. rewrite Hg. now rewrite <- Hn.
  - subst d. reflexivity.
  - subst d. discriminate.
  - subst d. reflexivity.
Qed.

(** Case analysis on the guard of an [if]. *)
Ltac destruct_guard E :=
  match goal with
  | |- context [if ?b then _ else _] => destruct b eqn:E
  end.

(** A guard [lo <= n <= hi] that holds, as inequalities. *)
Ltac guard_bounds E :=
  let E1 := fresh "E" in
  let E2 := fresh "E" in
  apply andb_prop in E as [E1 E2]; apply Z.leb_le in E1, E2.

(** C2 (as the code has it).  For every recurrence type the descriptor
    answers with the generic label of the type when the guard of its case
    fails: interval absent or not positive; dayOfWeek absent or outside
    1-7; dayOfMonth of a monthly-date rule absent or outside 1-31;
    weekOfMonth absent, or dayOfWeekMonthly absent or outside 1-7; month
    absent or outside 1-12, or dayOfMonth of an annual rule absent.  The
    descriptor is a total function, so it never throws. *)
Theorem C2_fallback_label (t : Todo) (lbl : string) :
  Degenerate t lbl -> getRecurrencePrefix t = lbl.
Proof.
  intros H;
    destruct H as [Hty H | Hty H | Hty H | Hty H | Hty H | Hty H | Hty H | Hty H];
    unfold getRecurrencePrefix; rewrite Hty; simpl; unfold outside in H.
  - destruct (recurrenceInterval t) as [| |n]; simpl in H; try reflexivity.
    destruct_guard E; [apply Z.ltb_lt in E; lia | reflexivity].
  - destruct (recurrenceDayOfWeek t) as [| |n]; simpl in H; try reflexivity.
    destruct_guard E; [guard_bounds E; lia | reflexivity].
  - destruct (recurrenceDayOfWeek t) as [| |n]; simpl in H; try reflexivity.
    destruct_guard E; [guard_bounds E; lia | reflexivity].
  - destruct (recurrenceDayOfMonth t) as [| |n]; simpl in H; try reflexivity.
    destruct_guard E; [guard_bounds E; lia | reflexivity].
  - destruct (recurrenceWeekOfMonth t) as [| |w]; simpl in H;
      try reflexivity; contradiction.
  - destruct (recurrenceWeekOfMonth t) as [| |w]; try reflexivity.
    destruct (recurrenceDayOfWeekMonthly t) as [| |n]; simpl in H;
      try reflexivity.
    destruct_guard E; [guard_bounds E; lia | reflexivity].
  - destruct (recurrenceMonth t) as [| |m]; simpl in H; try reflexivity.
    destruct (recurrenceDayOfMonth t) as [| |n]; try reflexivity.
    destruct_guard E; [guard_bounds E; lia | reflexivity].
  - destruct (recurrenceMonth t) as [| |m]; try reflexivity.
    destruct (recurrenceDayOfMonth t) as [| |n]; simpl in H;
      try reflexivity; contradiction.
Qed.

Lemma C2_fallback_label_witness :
  Degenerate todoNullWeekly "weekly"
  /\ getRecurrencePrefix todoNullWeekly = "weekly".
Proof.
  assert (H : Degenerate todoNullWeekly "weekly")
    by (apply deg_weekly; [reflexivity | exact I]).
  split; [exact H | exact (C2_fallback_label todoNullWeekly "weekly" H)].
Defined.

(** C2 as stated fails: [weekOfMonth = 0] is outside its declared range
    1-5, yet the label is "0th monday" and not "monthly"; likewise an
    annual rule with [dayOfMonth = 32] is labelled "7/32". *)
Lemma C2_declared_range_counterexample :
  DeclaredDegenerate todoWeekZero "monthly"
  /\ getRecurrencePrefix todoWeekZero = "0th monday"
  /\ getRecurrencePrefix todoWeekZero <> "monthly"
  /\ DeclaredDegenerate todoAnnualDay32 "annually"
  /\ getRecurrencePrefix todoAnnualDay32 = "7/32"
  /\ getRecurrencePrefix todoAnnualDay32 <> "annually".
Proof.
  repeat split.
  - apply ddeg_monthly_day_week; [reflexivity | simpl; unfold outside; lia].
  - discriminate.
  - apply ddeg_annually_day; [reflexivity | simpl; unfold outside; lia].
  - discriminate.
Qed.

(** *** No label contains "unknown" *)









(** The labels that the test suite expects. *)
Example getRecurrencePrefix_examples :
  getRecurrencePrefix (mkTodo "daily" JNull JNull JNull JNull JNull JNull)
    = "every day"
  /\ getRecurrencePrefix (mkTodo "every x days" (JNum 14) JNull JNull JNull JNull JNull)
    = "every 14 days"
  /\ getRecurrencePrefix (mkTodo "weekly" JNull (JNum 4) JNull JNull JNull JNull)
    = "every thursday"
  /\ getRecurrencePrefix (mkTodo "biweekly" JNull (JNum 5) JNull JNull JNull JNull)
    = "every other friday"
  /\ getRecurrencePrefix (mkTodo "monthly date" JNull JNull (JNum 15) JNull JNull JNull)
    = "on the 15th"
  /\ getRecurrencePrefix (mkTodo "monthly day" JNull JNull JNull (JNum 2) (JNum 1) JNull)
    = "2nd monday"
  /\ getRecurrencePrefix (mkTodo "annually" JNull JNull (JNum 15) JNull JNull (JNum 7))
    = "7/15"
  /\ getRecurrencePrefix (mkTodo "full moon" JNull JNull JNull JNull JNull JNull)
    = ""
  /\ getRecurrencePrefix (mkTodo "weekly" JNull JUndefined JNull JNull JNull JNull)
    = "weekly"
  /\ getRecurrencePrefix (mkTodo "every x days" (JNum (-5)) JNull JNull JNull JNull JNull)
    = "every x days"
  /\ map getOrdinal [1; 2; 3; 4; 11; 12; 13; 21; 22; 23; 31; 111; 112; 113]
    = ["1st"; "2nd"; "3rd"; "4th"; "11th"; "12th"; "13th"; "21st"; "22nd";
       "23rd"; "31st"; "111th"; "112th"; "113th"]
  /\ map getDayName [JNum (-1); JNum 7; JNull; JUndefined]
    = ["unknown"; "unknown"; "unknown"; "unknown"].
Proof. vm_compute. repeat split. Qed.

(** ** The calendar *)

Lemma allFrom_spec (f : Z -> bool) (fuel : nat) (i : Z) :
  allFrom f fuel i = true ->
  forall j, i <= j < i + Z.of_nat fuel -> f j = true.
Proof.
  revert i; induction fuel as [|k IH]; intros i H j Hj.
  - simpl in Hj. lia.
  - cbn [allFrom] in H. apply andb_prop in H as [H1 H2].
    destruct (Z.eq_dec j i) as [-> | Hne]; [exact H1|].
    apply (IH (i + 1) H2). lia.
Qed.

(** Every day of an era is handled correctly (146097 cases, by
    computation). *)
Lemma doeOk_all : allFrom doeOk (Z.to_nat 146097) 0 = true.
Proof. vm_compute. reflexivity. Qed.

(** [daysFromCivil] undoes [civilFromDays], whose month and day are
    calendar fields. *)
Lemma civil_spec (z : Z) :
  let '(y, m, d) := civilFromDays z in
  daysFromCivil y m d = z /\ 1 <= m <= 12 /\ 1 <= d <= 31.
Proof.
  unfold civilFromDays.
  set (z' := z + 719468).
  set (era := z' / 146097).
  set (doe := z' - era * 146097).
  assert (Hdoe : 0 <= doe < 146097).
  { subst doe era. pose proof (Z.div_mod z' 146097 ltac:(lia)).
    pose proof (Z.mod_pos_bound z' 146097 ltac:(lia)). lia. }
  pose proof (allFrom_spec _ _ _ doeOk_all doe) as Hok.
  specialize (Hok ltac:(rewrite Z2Nat.id by lia; lia)).
  unfold doeOk in Hok.
  set (yoe := (doe - doe / 1460 + doe / 36524 - doe / 146096) / 365) in *.
  set (doy := doe - (365 * yoe + yoe / 4 - yoe / 100)) in *.
  set (mp := (5 * doy + 2) / 153) in *.
  set (d := doy - (153 * mp + 2) / 5 + 1) in *.
  set (m := if mp <? 10 then mp + 3 else mp - 9) in *.
  repeat (apply andb_prop in Hok as [Hok ?]).
  repeat match goal with H : (_ <=? _) = true |- _ => apply Z.leb_le in H end.
  match goal with
  | H : (_ =? _) = true |- _ => apply Z.eqb_eq in H; rename H into Hrec
  end.
  assert (Hm : 1 <= m <= 12) by (subst m; destruct (mp <? 10) eqn:E;
    [apply Z.ltb_lt in E | apply Z.ltb_ge in E]; lia).
  split; [| split; [exact Hm | lia]].
  unfold daysFromCivil.
  set (y0 := if m <=? 2 then yoe + era * 400 + 1 else yoe + era * 400).
  assert (Hy : (if m <=? 2 then y0 - 1 else y0) = yoe + era * 400)
    by (subst y0; destruct (m <=? 2); lia).
  rewrite Hy.
  assert (He : (yoe + era * 400) / 400 = era)
    by (symmetry; apply (Z.div_unique (yoe + era * 400) 400 era yoe); lia).
  rewrite He.
  replace (yoe + era * 400 - era * 400) with yoe by lia.
  rewrite Hrec. subst doe z'. lia.
Qed.

Lemma daysFromCivil_day (y m d : Z) :
  daysFromCivil y m d = daysFromCivil y m 1 + d - 1.
Proof. unfold daysFromCivil. lia. Qed.

(** [MakeDay] on the year and month of [t] lands in the month of [t]. *)
Lemma MakeDay_fields (t date : Z) :
  MakeDay (YearFromTime t) (MonthFromTime t) date
  = Day t - DateFromTime t + date.
Proof.
  unfold MakeDay, YearFromTime, MonthFromTime, DateFromTime.
  pose proof (civil_spec (Day t)) as H.
  destruct (civilFromDays (Day t)) as [[y m] d].
  destruct H as (Hrt & Hm & _).
  rewrite (Z.div_small (m - 1) 12) by lia.
  rewrite (Z.mod_small (m - 1) 12) by lia.
  replace (y + 0) with y by lia.
  replace (m - 1 + 1) with m by lia.
  rewrite (daysFromCivil_day y m d) in Hrt. lia.
Qed.

Lemma MakeTime_fields (t : Z) :
  MakeTime (HourFromTime t) (MinFromTime t) (SecFromTime t) (msFromTime t)
  = TimeWithinDay t.
Proof.
  unfold MakeTime, HourFromTime, MinFromTime, SecFromTime, msFromTime,
    TimeWithinDay, msPerHour, msPerMinute, msPerSecond, msPerDay.
  pose proof (Z.div_mod t 86400000 ltac:(lia)).
  pose proof (Z.mod_pos_bound t 86400000 ltac:(lia)).
  pose proof (Z.div_mod t 3600000 ltac:(lia)).
  pose proof (Z.mod_pos_bound t 3600000 ltac:(lia)).
  pose proof (Z.div_mod t 60000 ltac:(lia)).
  pose proof (Z.mod_pos_bound t 60000 ltac:(lia)).
  pose proof (Z.div_mod t 1000 ltac:(lia)).
  pose proof (Z.mod_pos_bound t 1000 ltac:(lia)).
  pose proof (Z.div_mod (t / 3600000) 24 ltac:(lia)).
  pose proof (Z.mod_pos_bound (t / 3600000) 24 ltac:(lia)).
  pose proof (Z.div_mod (t / 60000) 60 ltac:(lia)).
  pose proof (Z.mod_pos_bound (t / 60000) 60 ltac:(lia)).
  pose proof (Z.div_mod (t / 1000) 60 ltac:(lia)).
  pose proof (Z.mod_pos_bound (t / 1000) 60 ltac:(lia)).
  assert (t / 3600000 / 24 = t / 86400000)
    by (rewrite Z.div_div by lia; reflexivity).
  assert (t / 60000 / 60 = t / 3600000)
    by (rewrite Z.div_div by lia; reflexivity).
  assert (t / 1000 / 60 = t / 60000)
    by (rewrite Z.div_div by lia; reflexivity).
  lia.
Qed.

Lemma MakeDate_Day (t : Z) : MakeDate (Day t) (TimeWithinDay t) = t.
Proof.
  unfold MakeDate, Day, TimeWithinDay.
  pose proof (Z.div_mod t msPerDay ltac:(unfold msPerDay; lia)). lia.
Qed.

Lemma TimeWithinDay_bound (t : Z) : 0 <= TimeWithinDay t < msPerDay.
Proof. apply Z.mod_pos_bound. unfold msPerDay; lia. Qed.

Lemma Day_MakeDate (day time : Z) :
  0 <= time < msPerDay -> Day (MakeDate day time) = day.
Proof.
  intros H. unfold Day, MakeDate. symmetry.
  apply (Z.div_unique (day * msPerDay + time) msPerDay day time); lia.
Qed.

Lemma Day_minus_day (t : Z) : Day (t - msPerDay) = Day t - 1.
Proof.
  unfold Day. replace (t - msPerDay) with (t + (-1) * msPerDay) by lia.
  rewrite Z.div_add by (unfold msPerDay; lia). lia.
Qed.

Lemma HourFromTime_minus_day (t : Z) :
  HourFromTime (t - msPerDay) = HourFromTime t.
Proof.
  unfold HourFromTime.
  replace (t - msPerDay) with (t + (-24) * msPerHour)
    by (unfold msPerDay, msPerHour; lia).
  rewrite Z.div_add by (unfold msPerHour; lia).
  replace (t / msPerHour + -24) with (t / msPerHour + (-1) * 24) by lia.
  now rewrite Z.mod_add by lia.
Qed.

(** ** [Date], date-fns and date-fns-tz *)

Section HostFacts.

Variable hostOffset : Z.

(** The fields of [toZonedTime(date, zone)], read in the zone of the
    host, are the wall-clock time of [zone]: its time value is that
    wall-clock time moved by the offset of the host. *)
Lemma toZonedTime_eq (date : Z) (zone : Zone) :
  toZonedTime hostOffset date zone = localTimeIn zone date - hostOffset.
Proof.
  unfold toZonedTime, tzParseTimezone, setHours, setFullYear, localTimeIn,
    getUTCFullYear, getUTCMonth, getUTCDate, getUTCHours, getUTCMinutes,
    getUTCSeconds, getUTCMilliseconds, LocalTime, UTC.
  replace (date - - offsetAt zone date) with (date + offsetAt zone date) by lia.
  set (d := date + offsetAt zone date).
  rewrite MakeDay_fields, MakeTime_fields.
  replace (Day d - DateFromTime d + DateFromTime d) with (Day d) by lia.
  replace (MakeDate (Day d) (TimeWithinDay (0 + hostOffset)) - hostOffset
           + hostOffset)
    with (MakeDate (Day d) (TimeWithinDay (0 + hostOffset))) by lia.
  rewrite Day_MakeDate by apply TimeWithinDay_bound.
  now rewrite MakeDate_Day.
Qed.

Lemma setUTCDate_previous (d : Z) :
  setUTCDate d (getUTCDate d - 1) = d - msPerDay.
Proof.
  unfold setUTCDate, getUTCDate. rewrite MakeDay_fields.
  pose proof (MakeDate_Day d) as H. unfold MakeDate in *. lia.
Qed.

Lemma addDays_previous (d : Z) :
  addDays hostOffset d (-1) = d - msPerDay.
Proof.
  unfold addDays, setDate, getDate, LocalTime, UTC. cbn [Z.eqb].
  rewrite MakeDay_fields.
  pose proof (MakeDate_Day (d + hostOffset)) as H. unfold MakeDate in *. lia.
Qed.

(** A date whose fields in the zone of the host are those of the
    wall-clock time [wall] prints as the calendar date of [wall]. *)
Lemma format_of_wall (wall : Z) :
  format hostOffset (wall - hostOffset) Fmt_yyyy_MM_dd = isoDate (Day wall).
Proof.
  unfold format, isoDate, getFullYear, getMonth, getDate, LocalTime,
    YearFromTime, MonthFromTime, DateFromTime.
  replace (wall - hostOffset + hostOffset) with wall by lia.
  destruct (civilFromDays (Day wall)) as [[y m] d].
  now replace (m - 1 + 1) with m by lia.
Qed.

Lemma getHours_of_wall (wall : Z) :
  getHours hostOffset (wall - hostOffset) = HourFromTime wall.
Proof.
  unfold getHours, LocalTime. f_equal. lia.
Qed.

(** [getCompletionDateForRecurrence] computes the effective day of the
    data model, in every zone and for every boundary hour. *)
Lemma getCompletionDateForRecurrence_effectiveDay
    (tz : Zone) (boundaryHour completionTime : Z) :
  getCompletionDateForRecurrence hostOffset tz boundaryHour completionTime
  = effectiveDay tz boundaryHour completionTime.
Proof.
  unfold getCompletionDateForRecurrence, effectiveDay, effectiveDayNumber,
    formatTz.
  rewrite toZonedTime_eq, getHours_of_wall, addDays_previous.
  set (wall := localTimeIn tz completionTime).
  destruct (HourFromTime wall <? boundaryHour).
  - replace (wall - hostOffset - msPerDay) with (wall - msPerDay - hostOffset)
      by lia.
    now rewrite format_of_wall, Day_minus_day.
  - apply format_of_wall.
Qed.

End HostFacts.

(** ** The effective day *)

(** The effective day is the calendar day of the local time moved back
    by the boundary hour. *)
Lemma effectiveDayNumber_shift (zone : Zone) (boundaryHour instant : Z) :
  0 <= boundaryHour <= 23 ->
  effectiveDayNumber zone boundaryHour instant
  = Day (localTimeIn zone instant - boundaryHour * msPerHour).
Proof.
  intros Hb. unfold effectiveDayNumber.
  set (local := localTimeIn zone instant).
  unfold HourFromTime, Day, msPerHour, msPerDay.
  pose proof (Z.div_mod local 3600000 ltac:(lia)).
  pose proof (Z.mod_pos_bound local 3600000 ltac:(lia)).
  pose proof (Z.div_mod (local / 3600000) 24 ltac:(lia)).
  pose proof (Z.mod_pos_bound (local / 3600000) 24 ltac:(lia)).
  assert (Hdd : local / 3600000 / 24 = local / 86400000)
    by (rewrite Z.div_div by lia; reflexivity).
  set (h := (local / 3600000) mod 24) in *.
  set (q := local / 86400000) in *.
  destruct (h <? boundaryHour) eqn:E;
    [apply Z.ltb_lt in E | apply Z.ltb_ge in E].
  - apply (Z.div_unique (local - boundaryHour * 3600000) 86400000 (q - 1)
             (local - boundaryHour * 3600000 - (q - 1) * 86400000)); lia.
  - apply (Z.div_unique (local - boundaryHour * 3600000) 86400000 q
             (local - boundaryHour * 3600000 - q * 86400000)); lia.
Qed.

(** In a zone with a fixed offset the effective day of the data model
    never goes back as time goes on. *)
Lemma effectiveDayNumber_monotone (offset boundaryHour t1 t2 : Z) :
  0 <= boundaryHour <= 23 -> t1 <= t2 ->
  effectiveDayNumber (fixedZone offset) boundaryHour t1
  <= effectiveDayNumber (fixedZone offset) boundaryHour t2.
Proof.
  intros Hb Hle. rewrite !effectiveDayNumber_shift by assumption.
  unfold Day, localTimeIn, fixedZone; cbn [offsetAt].
  apply Z.div_le_mono; [unfold msPerDay; lia | lia].
Qed.

(** ... and it moves on by one day every 24 hours, ... *)
Lemma effectiveDayNumber_next_day (offset boundaryHour t : Z) :
  0 <= boundaryHour <= 23 ->
  effectiveDayNumber (fixedZone offset) boundaryHour (t + msPerDay)
  = effectiveDayNumber (fixedZone offset) boundaryHour t + 1.
Proof.
  intros Hb. rewrite !effectiveDayNumber_shift by assumption.
  unfold Day, localTimeIn, fixedZone; cbn [offsetAt].
  replace (t + msPerDay + offset - boundaryHour * msPerHour)
    with (t + offset - boundaryHour * msPerHour + 1 * msPerDay) by lia.
  now rewrite Z.div_add by (unfold msPerDay; lia).
Qed.

(** ... changing exactly at the millisecond at which the local clock
    shows [boundaryHour]:00:00.000. *)
Lemma effectiveDayNumber_transition (offset boundaryHour t : Z) :
  0 <= boundaryHour <= 23 ->
  (TimeWithinDay (localTimeIn (fixedZone offset) t) = boundaryHour * msPerHour ->
     effectiveDayNumber (fixedZone offset) boundaryHour t
     = effectiveDayNumber (fixedZone offset) boundaryHour (t - 1) + 1)
  /\ (TimeWithinDay (localTimeIn (fixedZone offset) t) <> boundaryHour * msPerHour ->
     effectiveDayNumber (fixedZone offset) boundaryHour t
     = effectiveDayNumber (fixedZone offset) boundaryHour (t - 1)).
Proof.
  intros Hb. rewrite !effectiveDayNumber_shift by assumption.
  unfold Day, TimeWithinDay, localTimeIn, fixedZone; cbn [offsetAt].
  unfold msPerDay, msPerHour.
  set (l := t + offset).
  replace (t - 1 + offset) with (l - 1) by (subst l; lia).
  pose proof (Z.div_mod l 86400000 ltac:(lia)).
  pose proof (Z.mod_pos_bound l 86400000 ltac:(lia)).
  pose proof (Z.div_mod (l - boundaryHour * 3600000) 86400000 ltac:(lia)).
  pose proof (Z.mod_pos_bound (l - boundaryHour * 3600000) 86400000 ltac:(lia)).
  pose proof (Z.div_mod (l - 1 - boundaryHour * 3600000) 86400000 ltac:(lia)).
  pose proof (Z.mod_pos_bound (l - 1 - boundaryHour * 3600000) 86400000 ltac:(lia)).
  split; intros; lia.
Qed.

Section EffectiveDayFacts.

Variable hostOffset : Z.

Lemma toISODateInEST_eq (tz : Zone) (date : Z) :
  toISODateInEST hostOffset tz date = plainIsoDate (Day (localTimeIn tz date)).
Proof.
  unfold toISODateInEST, formatInEST, plainIsoDate.
  rewrite toZonedTime_eq.
  unfold getFullYear, getMonth, getDate, LocalTime,
    YearFromTime, MonthFromTime, DateFromTime.
  replace (localTimeIn tz date - hostOffset + hostOffset)
    with (localTimeIn tz date) by lia.
  destruct (civilFromDays (Day (localTimeIn tz date))) as [[y m] d].
  now replace (m - 1 + 1) with m by lia.
Qed.

(** What [getEffectiveDayForTimestamp] computes: the hour is that of
    the wall-clock time moved by the offset of the host, and the offset
    of the zone is applied once more before the date is printed. *)
Lemma getEffectiveDayForTimestamp_eq (tz : Zone) (timestamp boundaryHour : Z) :
  getEffectiveDayForTimestamp hostOffset tz timestamp boundaryHour
  = let zoned := localTimeIn tz timestamp - hostOffset in
    let adjusted :=
      if HourFromTime zoned <? boundaryHour then zoned - msPerDay else zoned in
    plainIsoDate (Day (localTimeIn tz adjusted)).
Proof.
  unfold getEffectiveDayForTimestamp.
  rewrite toISODateInEST_eq, toZonedTime_eq, setUTCDate_previous.
  reflexivity.
Qed.

End EffectiveDayFacts.

(** On a host in UTC with UTC as the configured zone, the set-up of the
    tests, [getEffectiveDayForTimestamp] prints the effective day of the
    data model. *)
Lemma getEffectiveDayForTimestamp_utc (timestamp boundaryHour : Z) :
  getEffectiveDayForTimestamp 0 zoneUTC timestamp boundaryHour
  = plainIsoDate (effectiveDayNumber zoneUTC boundaryHour timestamp).
Proof.
  rewrite getEffectiveDayForTimestamp_eq.
  unfold effectiveDayNumber, localTimeIn, zoneUTC, fixedZone; cbn [offsetAt].
  replace (timestamp + 0 - 0) with timestamp by lia.
  replace (timestamp + 0) with timestamp by lia.
  destruct (HourFromTime timestamp <? boundaryHour).
  - replace (timestamp - msPerDay + 0) with (timestamp - msPerDay) by lia.
    now rewrite Day_minus_day.
  - now replace (timestamp + 0) with timestamp by lia.
Qed.

Lemma yearOk_all : allFrom yearOk (Z.to_nat 9000) 1000 = true.
Proof. vm_compute. reflexivity. Qed.

Lemma year_padding (y : Z) :
  1000 <= y <= 9999 -> addLeadingZeros y 4 = numToString y.
Proof.
  intros H. apply String.eqb_eq.
  apply (allFrom_spec yearOk (Z.to_nat 9000) 1000 yearOk_all).
  rewrite Z2Nat.id by lia. lia.
Qed.

Lemma field_padding (n : Z) :
  0 <= n -> addLeadingZeros n 2 = padStart 2 (numToString n).
Proof.
  intros H. unfold addLeadingZeros.
  destruct (n <? 0) eqn:E; [apply Z.ltb_lt in E; lia |].
  now rewrite Z.abs_eq by assumption.
Qed.

(** For a year of four digits the two ways of printing a date agree. *)
Lemma isoDate_plainIsoDate (dayNumber : Z) :
  1000 <= yearOfDay dayNumber <= 9999 ->
  isoDate dayNumber = plainIsoDate dayNumber.
Proof.
  unfold yearOfDay, isoDate, plainIsoDate, renderIsoDate.
  pose proof (civil_spec dayNumber) as H.
  destruct (civilFromDays dayNumber) as [[y m] d].
  destruct H as (_ & Hm & Hd). intros Hy.
  destruct (0 <? y) eqn:E; [| apply Z.ltb_ge in E; lia].
  now rewrite year_padding, !field_padding by lia.
Qed.

(** On a host in UTC with UTC as the configured zone the two
    implementations of the effective day agree (years 1000 to 9999). *)
Lemma implementations_agree_utc (timestamp boundaryHour : Z) :
  1000 <= yearOfDay (effectiveDayNumber zoneUTC boundaryHour timestamp) <= 9999 ->
  getCompletionDateForRecurrence 0 zoneUTC boundaryHour timestamp
  = getEffectiveDayForTimestamp 0 zoneUTC timestamp boundaryHour.
Proof.
  intros Hy.
  rewrite getCompletionDateForRecurrence_effectiveDay,
    getEffectiveDayForTimestamp_utc.
  now apply isoDate_plainIsoDate.
Qed.

(** C3.  The effective day is the previous local calendar day when the
    local hour is below the boundary hour and the same local calendar day
    otherwise.  [getEffectiveDayForTimestamp] breaks this as soon as the
    configured zone is not UTC.  On a host in UTC, with New York as the
    zone: at 04:00 local time on 2026-01-06 and boundary hour 4 the
    effective day is 2026-01-06, the code answers 2026-01-05; at 01:00
    local time and the default boundary hour 0 the code again answers
    2026-01-05.  On a host in the New York zone at 02:00 local time and
    boundary hour 4 the effective day is 2026-01-05, the code answers
    2026-01-06.  [getCompletionDateForRecurrence] is right each time. *)
Theorem C3_effective_day_failing_inputs :
  let at0400 := utcInstant 2026 1 6 9 0 in
  let at0100 := utcInstant 2026 1 6 6 0 in
  let at0200 := utcInstant 2026 1 6 7 0 in
  (HourFromTime (localTimeIn zoneEST at0400) = 4
   /\ effectiveDay zoneEST 4 at0400 = "2026-01-06"
   /\ getCompletionDateForRecurrence 0 zoneEST 4 at0400 = "2026-01-06"
   /\ getEffectiveDayForTimestamp 0 zoneEST at0400 4 = "2026-01-05")
  /\ (HourFromTime (localTimeIn zoneEST at0100) = 1
   /\ effectiveDay zoneEST 0 at0100 = "2026-01-06"
   /\ getCompletionDateForRecurrence 0 zoneEST 0 at0100 = "2026-01-06"
   /\ getEffectiveDayForTimestamp 0 zoneEST at0100 0 = "2026-01-05")
  /\ (HourFromTime (localTimeIn zoneEST at0200) = 2
   /\ effectiveDay zoneEST 4 at0200 = "2026-01-05"
   /\ getCompletionDateForRecurrence (-5 * msPerHour) zoneEST 4 at0200
      = "2026-01-05"
   /\ getEffectiveDayForTimestamp (-5 * msPerHour) zoneEST at0200 4
      = "2026-01-06").
Proof. vm_compute. repeat split. Qed.

(** C6.  The effective day must never go back as the instant advances,
    with one change of day in 24 hours, at the boundary hour.  On a host
    in UTC, with New York as the zone and boundary hour 4, the day that
    [getEffectiveDayForTimestamp] prints goes back from 2026-01-05 (at
    23:00 local time) to 2026-01-04 (at 01:00, two hours later), then
    forward to 2026-01-05 (at 04:30) and to 2026-01-06 (at 05:30): three
    changes within seven hours, one of them backwards.  The effective day
    of the data model changes once over the same instants. *)
Theorem C6_effective_day_goes_back :
  let at2300 := utcInstant 2026 1 6 4 0 in
  let at0100 := utcInstant 2026 1 6 6 0 in
  let at0430 := utcInstant 2026 1 6 9 30 in
  let at0530 := utcInstant 2026 1 6 10 30 in
  at2300 < at0100 < at0430 /\ at0430 < at0530 < at2300 + msPerDay
  /\ map (fun t => getEffectiveDayForTimestamp 0 zoneEST t 4)
         [at2300; at0100; at0430; at0530]
     = ["2026-01-05"; "2026-01-04"; "2026-01-05"; "2026-01-06"]
  /\ map (effectiveDay zoneEST 4) [at2300; at0100; at0430; at0530]
     = ["2026-01-05"; "2026-01-05"; "2026-01-06"; "2026-01-06"].
Proof. vm_compute. repeat split. Qed.

(** C9.  [getCompletionDateForRecurrence] and
    [getEffectiveDayForTimestamp] are to return the same date for the same
    timestamp, zone and boundary hour.  They differ on a host in UTC with
    New York as the zone (04:00 local time, boundary hour 4) and on a host
    in the New York zone (02:00 local time, boundary hour 4).  With UTC
    for both they still differ in how a year before 1000 is printed. *)
Theorem C9_implementations_disagree :
  let at0400 := utcInstant 2026 1 6 9 0 in
  let at0200 := utcInstant 2026 1 6 7 0 in
  let year999 := utcInstant 999 1 5 10 0 in
  (getCompletionDateForRecurrence 0 zoneEST 4 at0400 = "2026-01-06"
   /\ getEffectiveDayForTimestamp 0 zoneEST at0400 4 = "2026-01-05")
  /\ (getCompletionDateForRecurrence (-5 * msPerHour) zoneEST 4 at0200
      = "2026-01-05"
   /\ getEffectiveDayForTimestamp (-5 * msPerHour) zoneEST at0200 4
      = "2026-01-06")
  /\ (getCompletionDateForRecurrence 0 zoneUTC 4 year999 = "0999-01-05"
   /\ getEffectiveDayForTimestamp 0 zoneUTC year999 4 = "999-01-05").
Proof. vm_compute. repeat split. Qed.

(** *** The printed date determines the day *)









(** ** Work-session phases *)

(** The elapsed minutes are within the window exactly when the elapsed
    milliseconds are within 60000 times the window. *)
Lemma minutes_within_window (sessionTime now visibilityMinutes : Z) :
  Qle_bool (Qmake (now - sessionTime) 60000) (inject_Z visibilityMinutes) = true
  <-> now - sessionTime <= visibilityMinutes * 60000.
Proof.
  rewrite Qle_bool_iff. unfold Qle, inject_Z; cbn [Qnum Qden].
  rewrite Z.mul_1_r. reflexivity.
Qed.



(** The scenarios of the tests, on a host in UTC with UTC as the zone: a
    crossing of the day boundary wins over a window of 24 hours; the
    window includes its last minute. *)
Example getWorkedOnPhase_scenarios :
  getWorkedOnPhase 0 zoneUTC (utcInstant 2026 1 5 10 0)
                   (utcInstant 2026 1 6 5 0) 1440 4 = 3
  /\ getWorkedOnPhase 0 zoneUTC (utcInstant 2026 1 5 10 0)
                      (utcInstant 2026 1 5 11 0) 60 4 = 1
  /\ getWorkedOnPhase 0 zoneUTC (utcInstant 2026 1 5 10 0)
                      (utcInstant 2026 1 5 11 1) 60 4 = 2
  /\ getWorkedOnPhase 0 zoneUTC (utcInstant 2026 1 5 3 50)
                      (utcInstant 2026 1 5 4 10) 15 4 = 3.
Proof. vm_compute. repeat split. Qed.

(** ** Today for recurrence *)







(** ** Recurrence Advancer *)

Lemma dayNumberOf_plusDays (c : CalendarDate) (n : Z) :
  dayNumberOf (plusDays c n) = dayNumberOf c + n.
Proof.
  unfold plusDays, dateOfDayNumber, dayNumberOf at 1.
  pose proof (civil_spec (dayNumberOf c + n)) as H.
  destruct (civilFromDays (dayNumberOf c + n)) as [[y m] d].
  cbn [cYear cMonth cDay]. tauto.
Qed.

Section AdvancerFacts.

Variable astronomy : string -> CalendarDate -> CalendarDate -> CalendarDate.

(** C7.  For a recurring occurrence whose rule and current date have a
    next occurrence, the skip and the complete entry points create the
    new instance on that same date; they differ only in what becomes of
    the prior occurrence (deleted, marked completed). *)
Theorem C7_skip_complete_parity
    (occ : Occurrence) (referenceToday next : CalendarDate) :
  isRecurring occ = true ->
  nextOccurrence astronomy (occRule occ) (displayDate occ) referenceToday
    = inr next ->
  skipRoute astronomy occ referenceToday
    = inr (mkResult (Some next) PriorDeleted)
  /\ completeRoute astronomy occ referenceToday
    = inr (mkResult (Some next) PriorCompleted).
Proof.
  intros Hrec Hnext. unfold skipRoute, completeRoute.
  rewrite Hrec, Hnext. split; reflexivity.
Qed.

(** C8.  Under a daily rule the next occurrence is the current date
    plus exactly one day, under a weekly rule plus exactly seven days,
    whatever the caller's today: daily from 2026-01-05 gives 2026-01-06,
    weekly from 2026-01-05 gives 2026-01-12. *)
Theorem C8_daily_weekly_advance (rule : Todo) (currentDate : CalendarDate) :
  (recurrenceType rule = "daily" ->
     forall referenceToday,
       nextOccurrence astronomy rule currentDate referenceToday
       = inr (plusDays currentDate 1))
  /\ (forall d, recurrenceType rule = "weekly" ->
     recurrenceDayOfWeek rule = JNum d -> 1 <= d <= 7 ->
     forall referenceToday,
       nextOccurrence astronomy rule currentDate referenceToday
       = inr (plusDays currentDate 7))
  /\ dayNumberOf (plusDays currentDate 1) = dayNumberOf currentDate + 1
  /\ dayNumberOf (plusDays currentDate 7) = dayNumberOf currentDate + 7
  /\ formatCalendarDate (plusDays (mkDate 2026 1 5) 1) = "2026-01-06"
  /\ formatCalendarDate (plusDays (mkDate 2026 1 5) 7) = "2026-01-12".
Proof.
  repeat split.
  - intros Hty ref. unfold nextOccurrence. now rewrite Hty.
  - intros d Hty Hf Hd ref. unfold nextOccurrence. rewrite Hty, Hf.
    cbn [String.eqb Ascii.eqb Bool.eqb].
    now rewrite (weekday_guard d Hd).
  - apply dayNumberOf_plusDays.
  - apply dayNumberOf_plusDays.
Qed.

End AdvancerFacts.

Lemma C7_skip_complete_parity_witness :
  skipRoute noAstronomy (mkOccurrence weeklyTodo true (mkDate 2026 1 5))
            (mkDate 2026 1 5)
    = inr (mkResult (Some (mkDate 2026 1 12)) PriorDeleted)
  /\ completeRoute noAstronomy (mkOccurrence weeklyTodo true (mkDate 2026 1 5))
                   (mkDate 2026 1 5)
    = inr (mkResult (Some (mkDate 2026 1 12)) PriorCompleted).
Proof.
  apply (C7_skip_complete_parity noAstronomy
           (mkOccurrence weeklyTodo true (mkDate 2026 1 5))
           (mkDate 2026 1 5) (mkDate 2026 1 12)).
  - reflexivity.
  - vm_compute. reflexivity.
Defined.

Lemma C8_daily_weekly_advance_witness :
  nextOccurrence noAstronomy dailyTodo (mkDate 2026 1 5) (mkDate 2026 1 5)
    = inr (plusDays (mkDate 2026 1 5) 1)
  /\ nextOccurrence noAstronomy weeklyTodo (mkDate 2026 1 5) (mkDate 2030 6 1)
    = inr (plusDays (mkDate 2026 1 5) 7).
Proof.
  split.
  - apply (proj1 (C8_daily_weekly_advance noAstronomy dailyTodo (mkDate 2026 1 5))).
    reflexivity.
  - apply (proj1 (proj2 (C8_daily_weekly_advance noAstronomy weeklyTodo
                           (mkDate 2026 1 5))) 1).
    + reflexivity.
    + reflexivity.
    + lia.
Defined.

Lemma C1_weekday_label_witness :
  1 <= 7 <= 7 /\ getRecurrencePrefix sundayTodo = "every sunday".
Proof.
  split; [lia |].
  apply (proj1 (C1_weekday_label sundayTodo 7 ltac:(lia))); reflexivity.
Defined.
